(** * The maintenance dashboard front end: Landing view and Dashboard view

    A shallow embedding of [src/pages/Index.tsx] and [src/pages/Dashboard.tsx].

    - The Session Gateway (the [supabase] client) is an environment that fixes
      how each awaited call settles: it resolves with a value or rejects.
    - [async] functions are computations in a small monad that threads the
      component's state and a log of the observable effects (gateway calls,
      redirects, console output, toasts), with JavaScript's three ways of
      leaving a block: normally, by [return], or by a thrown error.
    - A render is a pure function from the component's state to an element
      tree. *)

From Stdlib Require Import String List Bool.
From ExtLib Require Import Structures.Monad.
Import ListNotations.
Import MonadNotation.

Local Open Scope string_scope.
Local Open Scope list_scope.
Local Open Scope monad_scope.

(** ** Data *)

(** A thrown or reported error; the code only logs it. *)
Definition JsError := string.

(** The auth user of the session: the two attributes the view reads. *)
Module User.
Record t := mk { id : string; email : string }.
End User.

(** [interface UserProfile]. The row comes from the backend unchecked, so at
    run time [user_type] is whatever string the [profiles] table holds. *)
Module UserProfile.
Record t := mk {
  id : string;
  email : string;
  full_name : string;
  user_type : string
}.
End UserProfile.

Record Session := { user : User.t }.

(** How an awaited promise settles. *)
Inductive Awaited (A : Type) : Type :=
| Resolved (a : A)
| Rejected (e : JsError).
Arguments Resolved {A} a.
Arguments Rejected {A} e.

(** The object a [.single()] query resolves with: [{ data, error }]. *)
Record SingleResponse := {
  data : option UserProfile.t;
  error : option JsError
}.

(** Modelled from the spec: the value [supabase.auth.signOut()] resolves
    with. The client is not among the sources; the spec gives the gateway
    contract [signOut() -> success | error], so the value reports success
    ([error] is [null]) or an error, in the [{ error }] shape that the profile
    lookup reads. *)
Module AuthResponse.
Record t := mk { error : option JsError }.
End AuthResponse.

(** The gateway as one mount or one click sees it.
    [auth_getSession] settles [supabase.auth.getSession()] (the [session]
    field of its [data]); [profiles_single id] settles
    [supabase.from('profiles').select('*').eq('id', id).single()];
    [auth_signOut] settles [supabase.auth.signOut()]. *)
Record Supabase := {
  auth_getSession : Awaited (option Session);
  profiles_single : string -> Awaited SingleResponse;
  auth_signOut : Awaited AuthResponse.t
}.

Record Toast := {
  title : string;
  description : string;
  variant : option string
}.

(** Observable effects, in the order they happen. *)
Inductive Event :=
| GetSession
| ProfileRequest (id : string)
| SignOut
| Navigate (path : string)
| ConsoleError (msg : string) (e : JsError)
| ShowToast (t : Toast).

Definition is_profile_request (ev : Event) : bool :=
  match ev with ProfileRequest _ => true | _ => false end.

Definition is_navigate (ev : Event) : bool :=
  match ev with Navigate _ => true | _ => false end.

(** ** The monad of handlers *)

(** How a block of statements ends. *)
Inductive Completion (A : Type) : Type :=
| Normal (a : A)
| Return
| Throw (e : JsError).
Arguments Normal {A} a.
Arguments Return {A}.
Arguments Throw {A} e.

Section Handlers.
Variable St : Type.

Record World := { state : St; log : list Event }.

Definition M (A : Type) : Type := Supabase -> World -> Completion A * World.

Definition m_ret {A} (a : A) : M A := fun _ w => (Normal a, w).

Definition m_bind {A B} (m : M A) (k : A -> M B) : M B :=
  fun sb w =>
    match m sb w with
    | (Normal a, w') => k a sb w'
    | (Return, w') => (Return, w')
    | (Throw e, w') => (Throw e, w')
    end.

(** [return;] *)
Definition return_ {A} : M A := fun _ w => (Return, w).

Definition emit (ev : Event) : M unit :=
  fun _ w => (Normal tt, {| state := state w; log := log w ++ [ev] |}).

Definition modify (f : St -> St) : M unit :=
  fun _ w => (Normal tt, {| state := f (state w); log := log w |}).

(** [await call]: the call is logged, then its settlement is the value or a
    throw at the [await]. *)
Definition await {A} (ev : Event) (call : Supabase -> Awaited A) : M A :=
  fun sb w =>
    let w' := {| state := state w; log := log w ++ [ev] |} in
    match call sb with
    | Resolved a => (Normal a, w')
    | Rejected e => (Throw e, w')
    end.

(** [try { body } catch (e) { handler e }] *)
Definition try_catch {A} (body : M A) (handler : JsError -> M A) : M A :=
  fun sb w =>
    match body sb w with
    | (Throw e, w') => handler e sb w'
    | r => r
    end.

(** [try { body } finally { fin }]: [fin] runs however [body] ended, and the
    way [body] ended stands unless [fin] itself returns or throws. *)
Definition try_finally {A} (body : M A) (fin : M unit) : M A :=
  fun sb w =>
    let (c, w') := body sb w in
    match fin sb w' with
    | (Normal _, w'') => (c, w'')
    | (Return, w'') => (Return, w'')
    | (Throw e, w'') => (Throw e, w'')
    end.

(** The body of an [async () => { ... }]: a [return] ends the call, an
    uncaught throw rejects its promise. *)
Definition async (body : M unit) : M unit :=
  fun sb w =>
    match body sb w with
    | (Return, w') => (Normal tt, w')
    | r => r
    end.
End Handlers.

Arguments state {St} w.
Arguments log {St} w.
Arguments m_ret {St A} a.
Arguments m_bind {St A B} m k.
Arguments return_ {St A}.
Arguments emit {St} ev.
Arguments modify {St} f.
Arguments await {St A} ev call.
Arguments try_catch {St A} body handler.
Arguments try_finally {St A} body fin.
Arguments async {St} body.

#[export] Instance Monad_M (St : Type) : Monad (M St) :=
  {| ret := fun _ a => m_ret a;
     bind := fun _ _ m k => m_bind m k |}.

(** [try { body } catch (e) { handler e } finally { fin }] *)
Definition try_catch_finally {St A}
    (body : M St A) (handler : JsError -> M St A) (fin : M St unit) : M St A :=
  try_finally (try_catch body handler) fin.

Definition navigate {St} (path : string) : M St unit := emit (Navigate path).
Definition console_error {St} (msg : string) (e : JsError) : M St unit :=
  emit (ConsoleError msg e).
Definition toast {St} (t : Toast) : M St unit := emit (ShowToast t).

(** ** Element trees *)

(** What a click handler does: [() => navigate(path)] or [handleLogout]. *)
Inductive Handler :=
| NavigateTo (path : string)
| HandleLogout.

#[warnings="-register-all"]
Inductive Node :=
| Text (s : string)
| Elem (tag : string) (props : list (string * string))
       (onClick : option Handler) (children : list Node).

(** [{cond && (<X/>)}]: [false] renders nothing. *)
Definition when (cond : bool) (n : Node) : list Node :=
  if cond then [n] else [].

(** [{value}] for a string or [undefined]: [undefined] renders nothing. *)
Definition interpolate (value : option string) : list Node :=
  match value with
  | Some s => [Text s]
  | None => []
  end.

(** [a || b] on values that are a string or [undefined]: the empty string and
    [undefined] are falsy. *)
Definition js_or (a b : option string) : option string :=
  match a with
  | Some s => if s =? "" then b else a
  | None => b
  end.

(** Every element with the given tag, in document order. *)
Fixpoint descendants (tag : string) (n : Node) : list Node :=
  match n with
  | Text _ => []
  | Elem t _ _ children =>
      (if t =? tag then [n] else []) ++ flat_map (descendants tag) children
  end.

(** All the text under a node, as the DOM's [textContent]. *)
Fixpoint text_content (n : Node) : string :=
  match n with
  | Text s => s
  | Elem _ _ _ children => String.concat "" (map text_content children)
  end.

(** The text that is a direct child of the node. *)
Definition own_text (n : Node) : string :=
  match n with
  | Text s => s
  | Elem _ _ _ children =>
      String.concat ""
        (flat_map (fun c => match c with Text s => [s] | Elem _ _ _ _ => [] end) children)
  end.

Definition on_click (n : Node) : option Handler :=
  match n with
  | Text _ => None
  | Elem _ _ h _ => h
  end.

Fixpoint prop (name : string) (props : list (string * string)) : option string :=
  match props with
  | [] => None
  | (k, v) :: rest => if k =? name then Some v else prop name rest
  end.

Definition href (n : Node) : option string :=
  match n with
  | Text _ => None
  | Elem _ props _ _ => prop "href" props
  end.

(** A way out of the page that a node offers: a link, or a button whose click
    handler is attached. *)
Inductive Affordance :=
| Link (target : string)
| Click (h : Handler).

Fixpoint affordances (n : Node) : list Affordance :=
  match n with
  | Text _ => []
  | Elem t props h children =>
      (if t =? "a" then
         match prop "href" props with Some target => [Link target] | None => [] end
       else [])
      ++ match h with Some h => [Click h] | None => [] end
      ++ flat_map affordances children
  end.

(** The buttons under a node: label and click handler. *)
Definition buttons (n : Node) : list (string * option Handler) :=
  map (fun b => (text_content b, on_click b)) (descendants "Button" n).

(** The navigation cards of a page: title and buttons of each. *)
Definition card_title (card : Node) : string :=
  String.concat "" (map text_content (descendants "CardTitle" card)).

Definition tiles (page : Node) : list (string * list (string * option Handler)) :=
  map (fun card => (card_title card, buttons card)) (descendants "Card" page).

Definition tile_titles (page : Node) : list string :=
  map card_title (descendants "Card" page).

Definition has_tile (title : string) (page : Node) : bool :=
  existsb (String.eqb title) (tile_titles page).

(** The tile with this title has a button with this label that goes to this
    path. *)
Definition tile_has_action (title label path : string) (page : Node) : bool :=
  existsb
    (fun t =>
       (fst t =? title) &&
       existsb
         (fun b =>
            (fst b =? label) &&
            match snd b with
            | Some (NavigateTo p) => p =? path
            | _ => false
            end)
         (snd t))
    (tiles page).

(** ** Components *)

(** A function component: its initial hook state, the effect it runs once
    after the first render, and its render from the current state. *)
Record Component (St : Type) := {
  init : St;
  on_mount : M St unit;
  view : St -> Node
}.
Arguments init {St} c.
Arguments on_mount {St} c.
Arguments view {St} c s.

Definition mount {St} (c : Component St) (sb : Supabase) : Completion unit * World St :=
  on_mount c sb {| state := init c; log := [] |}.

(** ** Landing view: [Index] *)

Module Index.

Definition render : Node :=
  Elem "div" [("className", "min-h-screen flex items-center justify-center bg-background")] None
    [Elem "div" [("className", "text-center space-y-6")] None
       [Elem "h1" [("className", "text-4xl font-bold mb-4")] None
          [Text "Sistema de Gerenciamento de Manutenção"];
        Elem "p" [("className", "text-xl text-muted-foreground")] None
          [Text "Controle completo de ordens de serviço, máquinas e métricas"];
        Elem "div" [("className", "space-y-4")] None
          [Elem "a"
             [("href", "/login");
              ("className", "inline-flex items-center justify-center rounded-md text-sm font-medium ring-offset-background transition-colors focus-visible:outline-none focus-visible:ring-2 focus-visible:ring-ring focus-visible:ring-offset-2 disabled:pointer-events-none disabled:opacity-50 bg-primary text-primary-foreground hover:bg-primary/90 h-10 px-4 py-2")]
             None
             [Text "Fazer Login"]]]].

(** [Index] calls no hook: it has no state and no effect. *)
Definition component : Component unit :=
  {| init := tt; on_mount := ret tt; view := fun _ => render |}.

End Index.

(** ** Dashboard: state and handlers *)

Module Dashboard.

(** The three [useState] cells. *)
Record State := {
  st_user : option User.t;
  st_profile : option UserProfile.t;
  st_loading : bool
}.

Definition initial : State :=
  {| st_user := None; st_profile := None; st_loading := true |}.

Definition setUser (u : option User.t) : M State unit :=
  modify (fun s => {| st_user := u; st_profile := st_profile s; st_loading := st_loading s |}).

Definition setProfile (p : option UserProfile.t) : M State unit :=
  modify (fun s => {| st_user := st_user s; st_profile := p; st_loading := st_loading s |}).

Definition setLoading (b : bool) : M State unit :=
  modify (fun s => {| st_user := st_user s; st_profile := st_profile s; st_loading := b |}).

Definition checkUser : M State unit :=
  async
    (try_catch_finally
       (session <- await GetSession auth_getSession ;;
        match session with
        | None =>
            navigate "/login" ;;
            return_
        | Some session =>
            setUser (Some (user session)) ;;
            (* Get user profile *)
            r <- await (ProfileRequest (User.id (user session)))
                       (fun sb => profiles_single sb (User.id (user session))) ;;
            match error r with
            | Some error => console_error "Error fetching profile:" error
            | None => setProfile (data r)
            end
        end)
       (fun error => console_error "Error checking user:" error)
       (setLoading false)).

Definition logout_ok : Toast :=
  {| title := "Logout realizado";
     description := "Você foi desconectado com sucesso";
     variant := None |}.

Definition logout_failed : Toast :=
  {| title := "Erro";
     description := "Erro ao fazer logout";
     variant := Some "destructive" |}.

Definition handleLogout : M State unit :=
  async
    (try_catch
       (await SignOut auth_signOut ;;
        navigate "/login" ;;
        toast logout_ok)
       (fun _ => toast logout_failed)).

(** [profile?.user_type === role] *)
Definition user_type_is (profile : option UserProfile.t) (role : string) : bool :=
  match profile with
  | Some p => UserProfile.user_type p =? role
  | None => false
  end.

Definition render (s : State) : Node :=
  let user := st_user s in
  let profile := st_profile s in
  if st_loading s then
    Elem "div" [("className", "min-h-screen flex items-center justify-center")] None
      [Elem "div" [] None [Text "Carregando..."]]
  else
    Elem "div" [("className", "min-h-screen bg-background p-6")] None
      [Elem "div" [("className", "max-w-7xl mx-auto")] None
         [Elem "div" [("className", "flex justify-between items-center mb-8")] None
            [Elem "div" [] None
               [Elem "h1" [("className", "text-3xl font-bold")] None
                  [Text "Sistema de Gerenciamento de Manutenção"];
                Elem "p" [("className", "text-muted-foreground")] None
                  ([Text "Bem-vindo, "]
                   ++ interpolate
                        (js_or (option_map UserProfile.full_name profile)
                               (option_map User.email user))
                   ++ match profile with
                      | Some profile =>
                          [Elem "Badge" [("variant", "secondary"); ("className", "ml-2")] None
                             [Text (if UserProfile.user_type profile =? "admin" then "Administrador"
                                    else if UserProfile.user_type profile =? "operator" then "Operador"
                                    else "Requisitante")]]
                      | None => []
                      end)];
             Elem "Button" [("variant", "outline")] (Some HandleLogout)
               [Text "Sair"]];

          Elem "div" [("className", "grid grid-cols-1 md:grid-cols-2 lg:grid-cols-3 gap-6")] None
            ((* Work Orders *)
             [Elem "Card" [] None
                [Elem "CardHeader" [] None
                   [Elem "CardTitle" [] None [Text "Ordens de Serviço"];
                    Elem "CardDescription" [] None [Text "Gerenciar ordens de manutenção"]];
                 Elem "CardContent" [] None
                   [Elem "div" [("className", "space-y-2")] None
                      [Elem "Button" [("className", "w-full")]
                         (Some (NavigateTo "/work-orders"))
                         [Text "Ver Ordens de Serviço"];
                       Elem "Button" [("variant", "outline"); ("className", "w-full")]
                         (Some (NavigateTo "/work-orders/new"))
                         [Text "Nova Ordem de Serviço"]]]]]

             (* Backlog *)
             ++ [Elem "Card" [] None
                   [Elem "CardHeader" [] None
                      [Elem "CardTitle" [] None [Text "Backlog"];
                       Elem "CardDescription" [] None [Text "Acompanhar status das ordens"]];
                    Elem "CardContent" [] None
                      [Elem "Button" [("className", "w-full")]
                         (Some (NavigateTo "/backlog"))
                         [Text "Ver Backlog"]]]]

             (* Machines *)
             ++ [Elem "Card" [] None
                   [Elem "CardHeader" [] None
                      [Elem "CardTitle" [] None [Text "Máquinas"];
                       Elem "CardDescription" [] None [Text "Cadastro de equipamentos"]];
                    Elem "CardContent" [] None
                      [Elem "div" [("className", "space-y-2")] None
                         ([Elem "Button" [("className", "w-full")]
                             (Some (NavigateTo "/machines"))
                             [Text "Gerenciar Máquinas"]]
                          ++ when (user_type_is profile "admin" || user_type_is profile "operator")
                               (Elem "Button" [("variant", "outline"); ("className", "w-full")]
                                  (Some (NavigateTo "/machines/new"))
                                  [Text "Cadastrar Máquina"]))]]]

             (* Personnel *)
             ++ when (user_type_is profile "admin")
                  (Elem "Card" [] None
                     [Elem "CardHeader" [] None
                        [Elem "CardTitle" [] None [Text "Pessoal"];
                         Elem "CardDescription" [] None [Text "Gerenciar técnicos"]];
                      Elem "CardContent" [] None
                        [Elem "div" [("className", "space-y-2")] None
                           [Elem "Button" [("className", "w-full")]
                              (Some (NavigateTo "/personnel"))
                              [Text "Gerenciar Pessoal"];
                            Elem "Button" [("variant", "outline"); ("className", "w-full")]
                              (Some (NavigateTo "/personnel/new"))
                              [Text "Cadastrar Técnico"]]]])

             (* Requesters *)
             ++ when (user_type_is profile "admin" || user_type_is profile "operator")
                  (Elem "Card" [] None
                     [Elem "CardHeader" [] None
                        [Elem "CardTitle" [] None [Text "Requisitantes"];
                         Elem "CardDescription" [] None [Text "Cadastro de requisitantes"]];
                      Elem "CardContent" [] None
                        [Elem "div" [("className", "space-y-2")] None
                           [Elem "Button" [("className", "w-full")]
                              (Some (NavigateTo "/requesters"))
                              [Text "Gerenciar Requisitantes"];
                            Elem "Button" [("variant", "outline"); ("className", "w-full")]
                              (Some (NavigateTo "/requesters/new"))
                              [Text "Cadastrar Requisitante"]]]])

             (* Metrics *)
             ++ [Elem "Card" [] None
                   [Elem "CardHeader" [] None
                      [Elem "CardTitle" [] None [Text "Métricas"];
                       Elem "CardDescription" [] None [Text "MTTR, MTBF e relatórios"]];
                    Elem "CardContent" [] None
                      [Elem "Button" [("className", "w-full")]
                         (Some (NavigateTo "/metrics"))
                         [Text "Ver Métricas"]]]])]].

(** What a click on a node's handler runs. *)
Definition run_handler (h : Handler) : M State unit :=
  match h with
  | NavigateTo path => navigate path
  | HandleLogout => handleLogout
  end.

(** [useEffect(() => { checkUser(); }, [])]: the effect hook runs
    [checkUser] once, after the first render. *)
Definition component : Component State :=
  {| init := initial; on_mount := checkUser; view := render |}.

End Dashboard.

(** ** Reading a rendered page *)

(** The welcome line of the header: the text of each paragraph, without the
    badge nested in it. *)
Definition welcome (page : Node) : list string :=
  map own_text (descendants "p" page).

Definition badges (page : Node) : list string :=
  map text_content (descendants "Badge" page).

Definition has_button (label : string) (page : Node) : bool :=
  existsb (fun b => fst b =? label) (buttons page).

(** The paths that the links and the navigation buttons of a page name. The
    sign-out button names none: what a click on it does is [handleLogout]'s to
    say. *)
Definition nav_targets (page : Node) : list string :=
  flat_map
    (fun a =>
       match a with
       | Link target => [target]
       | Click (NavigateTo path) => [path]
       | Click HandleLogout => []
       end)
    (affordances page).

Definition offers (path : string) (page : Node) : bool :=
  existsb (String.eqb path) (nav_targets page).

(** The profile lookup failed: the call rejected, or it resolved with an
    [error]. *)
Definition profile_fetch_fails (sb : Supabase) (id : string) : bool :=
  match profiles_single sb id with
  | Rejected _ => true
  | Resolved r => match error r with Some _ => true | None => false end
  end.

(** The page the dashboard shows once its mount has settled. *)
Definition mounted_page (sb : Supabase) : Node :=
  view Dashboard.component (state (snd (mount Dashboard.component sb))).

(** The state once [checkUser] has finished: [loading] is off. *)
Definition settled (u : option User.t) (p : option UserProfile.t) : Dashboard.State :=
  {| Dashboard.st_user := u; Dashboard.st_profile := p; Dashboard.st_loading := false |}.

(** The test that gates the "Register Machine" button and the Requesters
    card. *)
Definition privileged (profile : option UserProfile.t) : bool :=
  Dashboard.user_type_is profile "admin" || Dashboard.user_type_is profile "operator".

(** The text of the role badge, as the header chooses it. *)
Definition badge_of (p : UserProfile.t) : string :=
  if UserProfile.user_type p =? "admin" then "Administrador"
  else if UserProfile.user_type p =? "operator" then "Operador"
  else "Requisitante".

(** ** Sample gateways *)

Module Samples.

Definition ana : UserProfile.t :=
  UserProfile.mk "u1" "a@x.com" "Ana" "operator".

Definition session_u1 : Session := {| user := User.mk "u1" "a@x.com" |}.

Definition with_profile (r : Awaited SingleResponse) : Supabase :=
  {| auth_getSession := Resolved (Some session_u1);
     profiles_single := fun _ => r;
     auth_signOut := Resolved (AuthResponse.mk None) |}.

Definition found (p : UserProfile.t) : Supabase :=
  with_profile (Resolved {| data := Some p; error := None |}).

Definition no_session : Supabase :=
  {| auth_getSession := Resolved None;
     profiles_single := fun _ => Rejected "unreachable";
     auth_signOut := Resolved (AuthResponse.mk None) |}.

Definition session_check_throws : Supabase :=
  {| auth_getSession := Rejected "network down";
     profiles_single := fun _ => Rejected "unreachable";
     auth_signOut := Rejected "network down" |}.

Definition profile_error : Supabase :=
  with_profile (Resolved {| data := None; error := Some "PGRST116" |}).

Definition clicked : World Dashboard.State :=
  {| state := {| Dashboard.st_user := Some (user session_u1);
                 Dashboard.st_profile := Some ana;
                 Dashboard.st_loading := false |};
     log := [GetSession; ProfileRequest "u1"] |}.

End Samples.

(** ** Reading a log *)

Definition is_get_session (ev : Event) : bool :=
  match ev with GetSession => true | _ => false end.

Definition is_sign_out (ev : Event) : bool :=
  match ev with SignOut => true | _ => false end.

Definition is_console_error (ev : Event) : bool :=
  match ev with ConsoleError _ _ => true | _ => false end.

Definition is_toast (ev : Event) : bool :=
  match ev with ShowToast _ => true | _ => false end.

(** The affordance is the click that signs out. *)
Definition is_logout_click (a : Affordance) : bool :=
  match a with Click HandleLogout => true | _ => false end.

(** The button's handler is [handleLogout]. *)
Definition signs_out (b : string * option Handler) : bool :=
  match snd b with Some HandleLogout => true | _ => false end.

(** ** More sample inputs *)

Module Cases.

(** A lookup that resolves with neither a row nor an error. *)
Definition null_row : Supabase :=
  Samples.with_profile (Resolved {| data := None; error := None |}).

(** A lookup that rejects. *)
Definition profile_throws : Supabase :=
  Samples.with_profile (Rejected "timeout").

Definition rui : UserProfile.t := UserProfile.mk "u0" "root@x.com" "Rui" "admin".

Definition bia : UserProfile.t := UserProfile.mk "u2" "b@x.com" "Bia" "requester".

(** A row whose display name is the empty string. *)
Definition nameless : UserProfile.t := UserProfile.mk "u3" "c@x.com" "" "operator".

(** The same name and role as [Samples.ana] under another id and email. *)
Definition ana_again : UserProfile.t := UserProfile.mk "u7" "ana@y.org" "Ana" "operator".

Definition visitor : User.t := User.mk "u1" "a@x.com".

(** The same email as [visitor] under another id. *)
Definition visitor_again : User.t := User.mk "u8" "a@x.com".

(** A gateway whose sign-out fails and says so in the value it resolves
    with. *)
Definition sign_out_reports_error : Supabase :=
  {| auth_getSession := Resolved (Some Samples.session_u1);
     profiles_single := fun _ => Resolved {| data := Some rui; error := None |};
     auth_signOut := Resolved (AuthResponse.mk (Some "AuthRetryableFetchError")) |}.

Definition still_loading : Dashboard.State :=
  {| Dashboard.st_user := Some visitor;
     Dashboard.st_profile := Some rui;
     Dashboard.st_loading := true |}.

End Cases.

(** ** How [checkUser] and [handleLogout] run *)

Section Runs.
Import Dashboard.

Variable sb : Supabase.
Variable w : World State.

Ltac run :=
  unfold checkUser, handleLogout; cbn;
  unfold async, try_catch_finally, try_finally, try_catch, await, m_bind,
    m_ret, return_, navigate, console_error, toast, emit, setUser,
    setProfile, setLoading, modify.

Ltac step H := rewrite H; cbn.

Ltac done := rewrite <- ?app_assoc; reflexivity.

Lemma checkUser_session_rejected e :
  auth_getSession sb = Rejected e ->
  checkUser sb w =
    (Normal tt,
     {| state := settled (st_user (state w)) (st_profile (state w));
        log := log w ++ [GetSession; ConsoleError "Error checking user:" e] |}).
Proof. intros H. run. step H. done. Qed.

Lemma checkUser_no_session :
  auth_getSession sb = Resolved None ->
  checkUser sb w =
    (Normal tt,
     {| state := settled (st_user (state w)) (st_profile (state w));
        log := log w ++ [GetSession; Navigate "/login"] |}).
Proof. intros H. run. step H. done. Qed.

Lemma checkUser_profile_rejected s e :
  auth_getSession sb = Resolved (Some s) ->
  profiles_single sb (User.id (user s)) = Rejected e ->
  checkUser sb w =
    (Normal tt,
     {| state := settled (Some (user s)) (st_profile (state w));
        log := log w ++ [GetSession; ProfileRequest (User.id (user s));
                         ConsoleError "Error checking user:" e] |}).
Proof. intros H1 H2. run. step H1. step H2. done. Qed.

Lemma checkUser_profile_error s r e :
  auth_getSession sb = Resolved (Some s) ->
  profiles_single sb (User.id (user s)) = Resolved r ->
  error r = Some e ->
  checkUser sb w =
    (Normal tt,
     {| state := settled (Some (user s)) (st_profile (state w));
        log := log w ++ [GetSession; ProfileRequest (User.id (user s));
                         ConsoleError "Error fetching profile:" e] |}).
Proof.
  intros H1 H2 H3. run. step H1. step H2. step H3. done.
Qed.

Lemma checkUser_profile_found s r :
  auth_getSession sb = Resolved (Some s) ->
  profiles_single sb (User.id (user s)) = Resolved r ->
  error r = None ->
  checkUser sb w =
    (Normal tt,
     {| state := settled (Some (user s)) (data r);
        log := log w ++ [GetSession; ProfileRequest (User.id (user s))] |}).
Proof.
  intros H1 H2 H3. run. step H1. step H2. step H3. done.
Qed.

Lemma handleLogout_resolved r :
  auth_signOut sb = Resolved r ->
  handleLogout sb w =
    (Normal tt,
     {| state := state w;
        log := log w ++ [SignOut; Navigate "/login"; ShowToast logout_ok] |}).
Proof. intros H. run. step H. done. Qed.

Lemma handleLogout_rejected e :
  auth_signOut sb = Rejected e ->
  handleLogout sb w =
    (Normal tt,
     {| state := state w;
        log := log w ++ [SignOut; ShowToast logout_failed] |}).
Proof. intros H. run. step H. done. Qed.
End Runs.

(** ** What a settled render shows *)

Section Render.
Import Dashboard.

Lemma user_type_is_spec profile role :
  user_type_is profile role = true <->
  exists p, profile = Some p /\ UserProfile.user_type p = role.
Proof.
  destruct profile as [p|]; cbn.
  - rewrite String.eqb_eq. split.
    + intros H. exists p. auto.
    + intros [q [Hq H]]. injection Hq as ->. exact H.
  - split; [discriminate | intros [q [Hq _]]; discriminate].
Qed.

Lemma privileged_spec profile :
  privileged profile = true <->
  exists p, profile = Some p /\
    (UserProfile.user_type p = "admin" \/ UserProfile.user_type p = "operator").
Proof.
  unfold privileged. rewrite orb_true_iff, !user_type_is_spec. split.
  - intros [[p [Hp H]] | [p [Hp H]]]; exists p; auto.
  - intros [p [Hp [H | H]]]; [left | right]; exists p; auto.
Qed.

(** Case analysis on a state that has left [loading]: no profile, or a
    profile whose role is tested against the two literals the render
    compares it with; the name in the welcome line is there or not. *)
Ltac by_cases s Hl :=
  destruct s as [u [p|] l]; cbn in Hl; subst l;
  unfold privileged, badge_of, render, user_type_is;
  cbn [st_loading st_profile st_user];
  [ destruct (UserProfile.user_type p =? "admin");
    destruct (UserProfile.user_type p =? "operator") | ];
  match goal with |- context [interpolate ?name] => destruct name end;
  vm_compute; reflexivity.

Lemma render_personnel s :
  st_loading s = false ->
  has_tile "Pessoal" (render s) = user_type_is (st_profile s) "admin".
Proof. intros Hl. by_cases s Hl. Qed.

Lemma render_personnel_paths s :
  st_loading s = false ->
  offers "/personnel" (render s) = user_type_is (st_profile s) "admin" /\
  offers "/personnel/new" (render s) = user_type_is (st_profile s) "admin".
Proof. intros Hl. split; by_cases s Hl. Qed.

Lemma render_requesters s :
  st_loading s = false ->
  has_tile "Requisitantes" (render s) = privileged (st_profile s).
Proof. intros Hl. by_cases s Hl. Qed.

Lemma render_requesters_register s :
  st_loading s = false ->
  tile_has_action "Requisitantes" "Cadastrar Requisitante" "/requesters/new" (render s)
  = privileged (st_profile s).
Proof. intros Hl. by_cases s Hl. Qed.

Lemma render_requesters_paths s :
  st_loading s = false ->
  offers "/requesters" (render s) = privileged (st_profile s) /\
  offers "/requesters/new" (render s) = privileged (st_profile s).
Proof. intros Hl. split; by_cases s Hl. Qed.

Lemma render_register_machine s :
  st_loading s = false ->
  tile_has_action "Máquinas" "Cadastrar Máquina" "/machines/new" (render s)
  = privileged (st_profile s).
Proof. intros Hl. by_cases s Hl. Qed.

Lemma render_register_machine_button s :
  st_loading s = false ->
  has_button "Cadastrar Máquina" (render s) = privileged (st_profile s) /\
  offers "/machines/new" (render s) = privileged (st_profile s).
Proof. intros Hl. split; by_cases s Hl. Qed.

Lemma render_common s :
  st_loading s = false ->
  has_tile "Ordens de Serviço" (render s) = true /\
  has_tile "Backlog" (render s) = true /\
  has_tile "Máquinas" (render s) = true /\
  has_tile "Métricas" (render s) = true.
Proof. intros Hl. repeat split; by_cases s Hl. Qed.

Lemma render_badges s :
  st_loading s = false ->
  badges (render s) =
    match st_profile s with
    | Some p => [badge_of p]
    | None => []
    end.
Proof. intros Hl. by_cases s Hl. Qed.

Lemma render_welcome s :
  st_loading s = false ->
  welcome (render s) =
    [String.concat ""
       ("Bem-vindo, " ::
        match js_or (option_map UserProfile.full_name (st_profile s))
                    (option_map User.email (st_user s)) with
        | Some name => [name]
        | None => []
        end)].
Proof. intros Hl. by_cases s Hl. Qed.
(** The "Sair" button is on every settled page, and a click on it runs
    [handleLogout]. *)
Lemma render_logout_button s :
  st_loading s = false ->
  existsb
    (fun b => (fst b =? "Sair") &&
              match snd b with Some HandleLogout => true | _ => false end)
    (buttons (render s)) = true
  /\ run_handler HandleLogout = handleLogout.
Proof. intros Hl. split; [by_cases s Hl | reflexivity]. Qed.
End Render.

(** ** The mounted dashboard *)

Section Mounted.
Import Dashboard.

Lemma mounted_page_found sb s p :
  auth_getSession sb = Resolved (Some s) ->
  profiles_single sb (User.id (user s)) = Resolved {| data := Some p; error := None |} ->
  mount component sb =
    (Normal tt,
     {| state := settled (Some (user s)) (Some p);
        log := [GetSession; ProfileRequest (User.id (user s))] |}).
Proof.
  intros Hs Hp. unfold mount; cbn [on_mount init component].
  rewrite (checkUser_profile_found _ _ s _ Hs Hp eq_refl). reflexivity.
Qed.

Lemma mounted_profile_fails sb s :
  auth_getSession sb = Resolved (Some s) ->
  profile_fetch_fails sb (User.id (user s)) = true ->
  exists msg e,
    mount component sb =
      (Normal tt,
       {| state := settled (Some (user s)) None;
          log := [GetSession; ProfileRequest (User.id (user s)); ConsoleError msg e] |}).
Proof.
  intros Hs Hf. unfold profile_fetch_fails in Hf.
  unfold mount; cbn [on_mount init component].
  destruct (profiles_single sb (User.id (user s))) as [r | e] eqn:Hp.
  - destruct (error r) as [e |] eqn:He; [| discriminate].
    exists "Error fetching profile:", e.
    rewrite (checkUser_profile_error _ _ s r e Hs Hp He). reflexivity.
  - exists "Error checking user:", e.
    rewrite (checkUser_profile_rejected _ _ s e Hs Hp). reflexivity.
Qed.
End Mounted.

(** ** The claims *)

(** C1: whenever the session check resolves with no session, mounting the
    dashboard redirects to [/login] and issues no profile request: the session
    request and the redirect are the only effects, the redirect is the last
    one, and neither a user nor a profile is stored. *)
Theorem C1_absent_session_redirects sb :
  auth_getSession sb = Resolved None ->
  mount Dashboard.component sb =
    (Normal tt,
     {| state := settled None None;
        log := [GetSession; Navigate "/login"] |})
  /\ existsb is_profile_request (log (snd (mount Dashboard.component sb))) = false.
Proof.
  intros Hs.
  assert (E : mount Dashboard.component sb =
              (Normal tt, {| state := settled None None;
                             log := [GetSession; Navigate "/login"] |})).
  { unfold mount; cbn [on_mount init Dashboard.component].
    rewrite (checkUser_no_session _ _ Hs). reflexivity. }
  split; [exact E | rewrite E; reflexivity].
Qed.

Lemma C1_absent_session_redirects_witness :
  mount Dashboard.component Samples.no_session =
    (Normal tt,
     {| state := settled None None;
        log := [GetSession; Navigate "/login"] |})
  /\ existsb is_profile_request
       (log (snd (mount Dashboard.component Samples.no_session))) = false.
Proof. exact (C1_absent_session_redirects Samples.no_session eq_refl). Defined.

(** C2, on the code. [handleLogout] awaits [signOut] and drops the value it
    resolves with. So: when the call resolves reporting success, the view
    redirects to [/login] and then shows the success toast; when the failure
    is thrown, it is caught, no redirect occurs and the error toast is shown;
    but when the call resolves reporting an error, the view redirects to
    [/login] and shows the success toast all the same, against the claim. The
    component state is the same before and after in every case. *)
Theorem C2_sign_out_by_settlement sb w :
  (auth_signOut sb = Resolved (AuthResponse.mk None) ->
     Dashboard.handleLogout sb w =
       (Normal tt,
        {| state := state w;
           log := log w ++ [SignOut; Navigate "/login"; ShowToast Dashboard.logout_ok] |}))
  /\
  (forall e, auth_signOut sb = Rejected e ->
     Dashboard.handleLogout sb w =
       (Normal tt,
        {| state := state w;
           log := log w ++ [SignOut; ShowToast Dashboard.logout_failed] |}))
  /\
  (forall e, auth_signOut sb = Resolved (AuthResponse.mk (Some e)) ->
     Dashboard.handleLogout sb w =
       (Normal tt,
        {| state := state w;
           log := log w ++ [SignOut; Navigate "/login"; ShowToast Dashboard.logout_ok] |})).
Proof.
  split; [| split].
  - intros H. exact (handleLogout_resolved sb w _ H).
  - intros e H. exact (handleLogout_rejected sb w e H).
  - intros e H. exact (handleLogout_resolved sb w _ H).
Qed.

Lemma C2_sign_out_by_settlement_witness :
  Dashboard.handleLogout Samples.no_session Samples.clicked =
    (Normal tt,
     {| state := state Samples.clicked;
        log := [GetSession; ProfileRequest "u1";
                SignOut; Navigate "/login"; ShowToast Dashboard.logout_ok] |})
  /\
  Dashboard.handleLogout Samples.session_check_throws Samples.clicked =
    (Normal tt,
     {| state := state Samples.clicked;
        log := [GetSession; ProfileRequest "u1";
                SignOut; ShowToast Dashboard.logout_failed] |})
  /\
  Dashboard.handleLogout Cases.sign_out_reports_error Samples.clicked =
    (Normal tt,
     {| state := state Samples.clicked;
        log := [GetSession; ProfileRequest "u1";
                SignOut; Navigate "/login"; ShowToast Dashboard.logout_ok] |}).
Proof.
  split; [| split].
  - exact (proj1 (C2_sign_out_by_settlement Samples.no_session Samples.clicked) eq_refl).
  - exact (proj1 (proj2 (C2_sign_out_by_settlement Samples.session_check_throws
                           Samples.clicked))
             "network down" eq_refl).
  - exact (proj2 (proj2 (C2_sign_out_by_settlement Cases.sign_out_reports_error
                           Samples.clicked))
             "AuthRetryableFetchError" eq_refl).
Defined.

(** C3, as the code has it: whenever the session check itself throws, the
    error is caught and logged, and that is all: no redirect is issued and no
    profile is requested. The view leaves [loading] with neither a user nor a
    profile stored, and renders the four tiles that are not gated by role. *)
Theorem C3_session_check_error_logged sb e :
  auth_getSession sb = Rejected e ->
  mount Dashboard.component sb =
    (Normal tt,
     {| state := settled None None;
        log := [GetSession; ConsoleError "Error checking user:" e] |})
  /\ existsb is_navigate (log (snd (mount Dashboard.component sb))) = false
  /\ tile_titles (mounted_page sb) =
       ["Ordens de Serviço"; "Backlog"; "Máquinas"; "Métricas"].
Proof.
  intros Hs.
  assert (E : mount Dashboard.component sb =
              (Normal tt, {| state := settled None None;
                             log := [GetSession; ConsoleError "Error checking user:" e] |})).
  { unfold mount; cbn [on_mount init Dashboard.component].
    rewrite (checkUser_session_rejected _ _ e Hs). reflexivity. }
  unfold mounted_page. rewrite E. repeat split.
Qed.

Lemma C3_session_check_error_logged_witness :
  mount Dashboard.component Samples.session_check_throws =
    (Normal tt,
     {| state := settled None None;
        log := [GetSession; ConsoleError "Error checking user:" "network down"] |})
  /\ existsb is_navigate
       (log (snd (mount Dashboard.component Samples.session_check_throws))) = false
  /\ tile_titles (mounted_page Samples.session_check_throws) =
       ["Ordens de Serviço"; "Backlog"; "Máquinas"; "Métricas"].
Proof.
  exact (C3_session_check_error_logged Samples.session_check_throws "network down" eq_refl).
Defined.

(** C3, as the claim states it, fails: with a gateway whose session check
    throws, the mount logs the error and never redirects to [/login]. *)
Lemma C3_session_check_error_no_redirect :
  auth_getSession Samples.session_check_throws = Rejected "network down"
  /\ In (ConsoleError "Error checking user:" "network down")
        (log (snd (mount Dashboard.component Samples.session_check_throws)))
  /\ ~ In (Navigate "/login")
          (log (snd (mount Dashboard.component Samples.session_check_throws))).
Proof.
  split; [reflexivity |]. split.
  - vm_compute. right. left. reflexivity.
  - vm_compute. intros [H | [H | []]]; discriminate H.
Qed.

(** C4: for every mount with a session whose profile lookup fails (it rejects,
    or resolves with an error), the mount ends normally and the view leaves
    [loading] without a profile; the welcome line shows the session's email;
    the Personnel and Requesters cards and the "Register Machine" button are
    not rendered, and none of their paths is offered. *)
Theorem C4_profile_failure_degrades sb s :
  auth_getSession sb = Resolved (Some s) ->
  profile_fetch_fails sb (User.id (user s)) = true ->
  fst (mount Dashboard.component sb) = Normal tt
  /\ state (snd (mount Dashboard.component sb)) = settled (Some (user s)) None
  /\ welcome (mounted_page sb) = [("Bem-vindo, " ++ User.email (user s))%string]
  /\ has_tile "Pessoal" (mounted_page sb) = false
  /\ has_tile "Requisitantes" (mounted_page sb) = false
  /\ has_button "Cadastrar Máquina" (mounted_page sb) = false
  /\ offers "/machines/new" (mounted_page sb) = false
  /\ offers "/personnel" (mounted_page sb) = false
  /\ offers "/requesters" (mounted_page sb) = false.
Proof.
  intros Hs Hf.
  destruct (mounted_profile_fails sb s Hs Hf) as [msg [e E]].
  unfold mounted_page. rewrite E. cbn [fst snd state view Dashboard.component].
  pose proof (eq_refl : Dashboard.st_loading (settled (Some (user s)) None) = false) as Hl.
  rewrite (render_welcome _ Hl), (render_personnel _ Hl), (render_requesters _ Hl).
  rewrite (proj1 (render_register_machine_button _ Hl)),
          (proj2 (render_register_machine_button _ Hl)),
          (proj1 (render_personnel_paths _ Hl)),
          (proj1 (render_requesters_paths _ Hl)).
  repeat split.
Qed.

Lemma C4_profile_failure_degrades_witness :
  fst (mount Dashboard.component Samples.profile_error) = Normal tt
  /\ state (snd (mount Dashboard.component Samples.profile_error))
     = settled (Some (user Samples.session_u1)) None
  /\ welcome (mounted_page Samples.profile_error) = ["Bem-vindo, a@x.com"]
  /\ has_tile "Pessoal" (mounted_page Samples.profile_error) = false
  /\ has_tile "Requisitantes" (mounted_page Samples.profile_error) = false
  /\ has_button "Cadastrar Máquina" (mounted_page Samples.profile_error) = false
  /\ offers "/machines/new" (mounted_page Samples.profile_error) = false
  /\ offers "/personnel" (mounted_page Samples.profile_error) = false
  /\ offers "/requesters" (mounted_page Samples.profile_error) = false.
Proof.
  exact (C4_profile_failure_degrades Samples.profile_error Samples.session_u1
           eq_refl eq_refl).
Defined.

(** C5: for every session whose fetched profile has [user_type] ['admin'],
    the rendered tiles include the Personnel card, the Requesters card, and the
    "Register Machine" button of the Machines card. *)
Theorem C5_admin_tiles sb s p :
  auth_getSession sb = Resolved (Some s) ->
  profiles_single sb (User.id (user s)) = Resolved {| data := Some p; error := None |} ->
  UserProfile.user_type p = "admin" ->
  has_tile "Pessoal" (mounted_page sb) = true
  /\ has_tile "Requisitantes" (mounted_page sb) = true
  /\ tile_has_action "Máquinas" "Cadastrar Máquina" "/machines/new" (mounted_page sb) = true.
Proof.
  intros Hs Hp Ht.
  unfold mounted_page. rewrite (mounted_page_found sb s p Hs Hp).
  cbn [snd state view Dashboard.component].
  pose proof (eq_refl : Dashboard.st_loading (settled (Some (user s)) (Some p)) = false) as Hl.
  rewrite (render_personnel _ Hl), (render_requesters _ Hl), (render_register_machine _ Hl).
  unfold privileged, Dashboard.user_type_is, settled; cbn [Dashboard.st_profile].
  rewrite Ht. repeat split.
Qed.

Lemma C5_admin_tiles_witness :
  has_tile "Pessoal"
    (mounted_page (Samples.found (UserProfile.mk "u0" "root@x.com" "Rui" "admin"))) = true
  /\ has_tile "Requisitantes"
       (mounted_page (Samples.found (UserProfile.mk "u0" "root@x.com" "Rui" "admin"))) = true
  /\ tile_has_action "Máquinas" "Cadastrar Máquina" "/machines/new"
       (mounted_page (Samples.found (UserProfile.mk "u0" "root@x.com" "Rui" "admin"))) = true.
Proof.
  exact (C5_admin_tiles (Samples.found (UserProfile.mk "u0" "root@x.com" "Rui" "admin"))
           Samples.session_u1 _ eq_refl eq_refl eq_refl).
Defined.

(** C6: for every session whose fetched profile has [user_type]
    ['requester'], the Personnel card, the Requesters card and the "Register
    Machine" button are absent, and the Work Orders, Backlog, Machines and
    Metrics cards are present. *)
Theorem C6_requester_tiles sb s p :
  auth_getSession sb = Resolved (Some s) ->
  profiles_single sb (User.id (user s)) = Resolved {| data := Some p; error := None |} ->
  UserProfile.user_type p = "requester" ->
  (has_tile "Pessoal" (mounted_page sb) = false
   /\ has_tile "Requisitantes" (mounted_page sb) = false
   /\ has_button "Cadastrar Máquina" (mounted_page sb) = false
   /\ offers "/machines/new" (mounted_page sb) = false)
  /\
  (has_tile "Ordens de Serviço" (mounted_page sb) = true
   /\ has_tile "Backlog" (mounted_page sb) = true
   /\ has_tile "Máquinas" (mounted_page sb) = true
   /\ has_tile "Métricas" (mounted_page sb) = true).
Proof.
  intros Hs Hp Ht.
  unfold mounted_page. rewrite (mounted_page_found sb s p Hs Hp).
  cbn [snd state view Dashboard.component].
  pose proof (eq_refl : Dashboard.st_loading (settled (Some (user s)) (Some p)) = false) as Hl.
  split; [| exact (render_common _ Hl)].
  rewrite (render_personnel _ Hl), (render_requesters _ Hl).
  rewrite (proj1 (render_register_machine_button _ Hl)),
          (proj2 (render_register_machine_button _ Hl)).
  unfold privileged, Dashboard.user_type_is, settled; cbn [Dashboard.st_profile].
  rewrite Ht. repeat split.
Qed.

Lemma C6_requester_tiles_witness :
  (has_tile "Pessoal"
     (mounted_page (Samples.found (UserProfile.mk "u2" "b@x.com" "Bia" "requester"))) = false
   /\ has_tile "Requisitantes"
        (mounted_page (Samples.found (UserProfile.mk "u2" "b@x.com" "Bia" "requester"))) = false
   /\ has_button "Cadastrar Máquina"
        (mounted_page (Samples.found (UserProfile.mk "u2" "b@x.com" "Bia" "requester"))) = false
   /\ offers "/machines/new"
        (mounted_page (Samples.found (UserProfile.mk "u2" "b@x.com" "Bia" "requester"))) = false)
  /\
  (has_tile "Ordens de Serviço"
     (mounted_page (Samples.found (UserProfile.mk "u2" "b@x.com" "Bia" "requester"))) = true
   /\ has_tile "Backlog"
        (mounted_page (Samples.found (UserProfile.mk "u2" "b@x.com" "Bia" "requester"))) = true
   /\ has_tile "Máquinas"
        (mounted_page (Samples.found (UserProfile.mk "u2" "b@x.com" "Bia" "requester"))) = true
   /\ has_tile "Métricas"
        (mounted_page (Samples.found (UserProfile.mk "u2" "b@x.com" "Bia" "requester"))) = true).
Proof.
  exact (C6_requester_tiles (Samples.found (UserProfile.mk "u2" "b@x.com" "Bia" "requester"))
           Samples.session_u1 _ eq_refl eq_refl eq_refl).
Defined.

(** C7: with a session and the profile
    [{id: "u1", email: "a@x.com", full_name: "Ana", user_type: "operator"}],
    the header shows "Bem-vindo, Ana" with the badge "Operador", and the tiles
    are exactly Work Orders, Backlog, Machines with its "Register Machine"
    button, Requesters with its register button, and Metrics; there is no
    Personnel tile. *)
Theorem C7_operator_scenario sb s :
  auth_getSession sb = Resolved (Some s) ->
  profiles_single sb (User.id (user s))
    = Resolved {| data := Some (UserProfile.mk "u1" "a@x.com" "Ana" "operator");
                  error := None |} ->
  welcome (mounted_page sb) = ["Bem-vindo, Ana"]
  /\ badges (mounted_page sb) = ["Operador"]
  /\ tiles (mounted_page sb) =
       [("Ordens de Serviço",
         [("Ver Ordens de Serviço", Some (NavigateTo "/work-orders"));
          ("Nova Ordem de Serviço", Some (NavigateTo "/work-orders/new"))]);
        ("Backlog", [("Ver Backlog", Some (NavigateTo "/backlog"))]);
        ("Máquinas",
         [("Gerenciar Máquinas", Some (NavigateTo "/machines"));
          ("Cadastrar Máquina", Some (NavigateTo "/machines/new"))]);
        ("Requisitantes",
         [("Gerenciar Requisitantes", Some (NavigateTo "/requesters"));
          ("Cadastrar Requisitante", Some (NavigateTo "/requesters/new"))]);
        ("Métricas", [("Ver Métricas", Some (NavigateTo "/metrics"))])]
  /\ has_tile "Pessoal" (mounted_page sb) = false.
Proof.
  intros Hs Hp.
  unfold mounted_page. rewrite (mounted_page_found sb s _ Hs Hp).
  cbn [snd state view Dashboard.component].
  repeat split.
Qed.

Lemma C7_operator_scenario_witness :
  welcome (mounted_page (Samples.found Samples.ana)) = ["Bem-vindo, Ana"]
  /\ badges (mounted_page (Samples.found Samples.ana)) = ["Operador"]
  /\ tiles (mounted_page (Samples.found Samples.ana)) =
       [("Ordens de Serviço",
         [("Ver Ordens de Serviço", Some (NavigateTo "/work-orders"));
          ("Nova Ordem de Serviço", Some (NavigateTo "/work-orders/new"))]);
        ("Backlog", [("Ver Backlog", Some (NavigateTo "/backlog"))]);
        ("Máquinas",
         [("Gerenciar Máquinas", Some (NavigateTo "/machines"));
          ("Cadastrar Máquina", Some (NavigateTo "/machines/new"))]);
        ("Requisitantes",
         [("Gerenciar Requisitantes", Some (NavigateTo "/requesters"));
          ("Cadastrar Requisitante", Some (NavigateTo "/requesters/new"))]);
        ("Métricas", [("Ver Métricas", Some (NavigateTo "/metrics"))])]
  /\ has_tile "Pessoal" (mounted_page (Samples.found Samples.ana)) = false.
Proof.
  exact (C7_operator_scenario (Samples.found Samples.ana) Samples.session_u1
           eq_refl eq_refl).
Defined.

(** C8: the Landing view has no state and no effect: mounting it calls
    nothing on the gateway and changes nothing, and its render is the same tree
    whatever it is given. That tree offers exactly one way out, a link to
    [/login]. *)
Theorem C8_landing_is_static :
  (forall sb, mount Index.component sb = (Normal tt, {| state := tt; log := [] |}))
  /\ (forall st, view Index.component st = Index.render)
  /\ affordances Index.render = [Link "/login"]
  /\ map href (descendants "a" Index.render) = [Some "/login"].
Proof. repeat split. Qed.

(** C9: in every render that is not the loading placeholder, the Personnel
    card is shown exactly when a profile is stored and its [user_type] is
    ['admin']; the "Register Machine" button and the Requesters card are shown
    exactly when a profile is stored and its [user_type] is ['admin'] or
    ['operator']. So a profile whose [user_type] is none of ['admin'],
    ['operator'], ['requester'] gets none of the three, and its badge reads
    "Requisitante". *)
Theorem C9_role_gates s :
  Dashboard.st_loading s = false ->
  (has_tile "Pessoal" (Dashboard.render s) = true <->
   exists p, Dashboard.st_profile s = Some p /\ UserProfile.user_type p = "admin")
  /\
  (tile_has_action "Máquinas" "Cadastrar Máquina" "/machines/new" (Dashboard.render s) = true <->
   exists p, Dashboard.st_profile s = Some p /\
     (UserProfile.user_type p = "admin" \/ UserProfile.user_type p = "operator"))
  /\
  (has_tile "Requisitantes" (Dashboard.render s) = true <->
   exists p, Dashboard.st_profile s = Some p /\
     (UserProfile.user_type p = "admin" \/ UserProfile.user_type p = "operator"))
  /\
  (forall p,
     Dashboard.st_profile s = Some p ->
     UserProfile.user_type p <> "admin" ->
     UserProfile.user_type p <> "operator" ->
     UserProfile.user_type p <> "requester" ->
     has_tile "Pessoal" (Dashboard.render s) = false
     /\ has_tile "Requisitantes" (Dashboard.render s) = false
     /\ has_button "Cadastrar Máquina" (Dashboard.render s) = false
     /\ offers "/machines/new" (Dashboard.render s) = false
     /\ badges (Dashboard.render s) = ["Requisitante"]).
Proof.
  intros Hl.
  rewrite (render_personnel _ Hl), (render_register_machine _ Hl), (render_requesters _ Hl).
  split; [apply user_type_is_spec |].
  split; [apply privileged_spec |].
  split; [apply privileged_spec |].
  intros p Hp Ha Ho _.
  rewrite (proj1 (render_register_machine_button _ Hl)),
          (proj2 (render_register_machine_button _ Hl)),
          (render_badges _ Hl), Hp.
  unfold privileged, badge_of, Dashboard.user_type_is.
  apply String.eqb_neq in Ha, Ho. rewrite Ha, Ho.
  repeat split.
Qed.

Lemma C9_role_gates_witness :
  (has_tile "Pessoal"
     (Dashboard.render (settled None (Some (UserProfile.mk "u9" "g@x.com" "Gil" "guest")))) = true <->
   exists p, Dashboard.st_profile (settled None (Some (UserProfile.mk "u9" "g@x.com" "Gil" "guest")))
             = Some p /\ UserProfile.user_type p = "admin")
  /\
  (tile_has_action "Máquinas" "Cadastrar Máquina" "/machines/new"
     (Dashboard.render (settled None (Some (UserProfile.mk "u9" "g@x.com" "Gil" "guest")))) = true <->
   exists p, Dashboard.st_profile (settled None (Some (UserProfile.mk "u9" "g@x.com" "Gil" "guest")))
             = Some p /\
     (UserProfile.user_type p = "admin" \/ UserProfile.user_type p = "operator"))
  /\
  (has_tile "Requisitantes"
     (Dashboard.render (settled None (Some (UserProfile.mk "u9" "g@x.com" "Gil" "guest")))) = true <->
   exists p, Dashboard.st_profile (settled None (Some (UserProfile.mk "u9" "g@x.com" "Gil" "guest")))
             = Some p /\
     (UserProfile.user_type p = "admin" \/ UserProfile.user_type p = "operator"))
  /\
  (has_tile "Pessoal"
     (Dashboard.render (settled None (Some (UserProfile.mk "u9" "g@x.com" "Gil" "guest")))) = false
   /\ has_tile "Requisitantes"
        (Dashboard.render (settled None (Some (UserProfile.mk "u9" "g@x.com" "Gil" "guest")))) = false
   /\ has_button "Cadastrar Máquina"
        (Dashboard.render (settled None (Some (UserProfile.mk "u9" "g@x.com" "Gil" "guest")))) = false
   /\ offers "/machines/new"
        (Dashboard.render (settled None (Some (UserProfile.mk "u9" "g@x.com" "Gil" "guest")))) = false
   /\ badges
        (Dashboard.render (settled None (Some (UserProfile.mk "u9" "g@x.com" "Gil" "guest"))))
      = ["Requisitante"]).
Proof.
  pose proof (C9_role_gates
                (settled None (Some (UserProfile.mk "u9" "g@x.com" "Gil" "guest")))
                eq_refl) as [H1 [H2 [H3 H4]]].
  refine (conj H1 (conj H2 (conj H3 (H4 _ eq_refl _ _ _)))); discriminate.
Defined.

(** C10: in every render that is not the loading placeholder and has no
    profile stored, no badge element is rendered at all, and the tiles are the
    Work Orders, Backlog, Machines and Metrics cards. *)
Theorem C10_no_profile_no_badge s :
  Dashboard.st_loading s = false ->
  Dashboard.st_profile s = None ->
  descendants "Badge" (Dashboard.render s) = []
  /\ has_tile "Ordens de Serviço" (Dashboard.render s) = true
  /\ has_tile "Backlog" (Dashboard.render s) = true
  /\ has_tile "Máquinas" (Dashboard.render s) = true
  /\ has_tile "Métricas" (Dashboard.render s) = true.
Proof.
  intros Hl Hp. split; [| exact (render_common _ Hl)].
  destruct s as [u p l]; cbn in Hl, Hp; subst l p.
  unfold Dashboard.render; cbn [Dashboard.st_loading Dashboard.st_profile Dashboard.st_user].
  destruct (js_or (option_map UserProfile.full_name None) (option_map User.email u));
    reflexivity.
Qed.

Lemma C10_no_profile_no_badge_witness :
  descendants "Badge" (Dashboard.render (settled (Some (user Samples.session_u1)) None)) = []
  /\ has_tile "Ordens de Serviço"
       (Dashboard.render (settled (Some (user Samples.session_u1)) None)) = true
  /\ has_tile "Backlog"
       (Dashboard.render (settled (Some (user Samples.session_u1)) None)) = true
  /\ has_tile "Máquinas"
       (Dashboard.render (settled (Some (user Samples.session_u1)) None)) = true
  /\ has_tile "Métricas"
       (Dashboard.render (settled (Some (user Samples.session_u1)) None)) = true.
Proof.
  exact (C10_no_profile_no_badge (settled (Some (user Samples.session_u1)) None)
           eq_refl eq_refl).
Defined.

(** ** Further properties of the mount *)

Section MountShape.
Import Dashboard.

(** Every way a mount can go, by how the gateway settles the two calls. *)
Lemma mount_run sb :
  mount component sb =
    match auth_getSession sb with
    | Rejected e =>
        (Normal tt,
         {| state := settled None None;
            log := [GetSession; ConsoleError "Error checking user:" e] |})
    | Resolved None =>
        (Normal tt,
         {| state := settled None None;
            log := [GetSession; Navigate "/login"] |})
    | Resolved (Some s) =>
        match profiles_single sb (User.id (user s)) with
        | Rejected e =>
            (Normal tt,
             {| state := settled (Some (user s)) None;
                log := [GetSession; ProfileRequest (User.id (user s));
                        ConsoleError "Error checking user:" e] |})
        | Resolved r =>
            match error r with
            | Some e =>
                (Normal tt,
                 {| state := settled (Some (user s)) None;
                    log := [GetSession; ProfileRequest (User.id (user s));
                            ConsoleError "Error fetching profile:" e] |})
            | None =>
                (Normal tt,
                 {| state := settled (Some (user s)) (data r);
                    log := [GetSession; ProfileRequest (User.id (user s))] |})
            end
        end
    end.
Proof.
  unfold mount; cbn [on_mount init component].
  destruct (auth_getSession sb) as [[s |] | e] eqn:Hs.
  - destruct (profiles_single sb (User.id (user s))) as [r | e] eqn:Hp.
    + destruct (error r) as [e |] eqn:He.
      * rewrite (checkUser_profile_error _ _ s r e Hs Hp He). reflexivity.
      * rewrite (checkUser_profile_found _ _ s r Hs Hp He). reflexivity.
    + rewrite (checkUser_profile_rejected _ _ s e Hs Hp). reflexivity.
  - rewrite (checkUser_no_session _ _ Hs). reflexivity.
  - rewrite (checkUser_session_rejected _ _ e Hs). reflexivity.
Qed.
End MountShape.

(** Split a mount into its five runs. *)
Ltac mount_cases sb :=
  rewrite ?(mount_run sb);
  destruct (auth_getSession sb) as [[?s |] | ?e];
  [ destruct (profiles_single sb (User.id (user s))) as [?r | ?e];
    [ destruct (error r) as [?e |] | ]
  | | ];
  cbn [fst snd state log].

(** X1: whatever the gateway answers, [checkUser] ends normally (its promise
    never rejects) and turns [loading] off; the settled page is never the
    placeholder: it has the sign-out button and the four cards that are not
    gated by role. *)
Theorem mount_always_settles sb :
  fst (mount Dashboard.component sb) = Normal tt
  /\ Dashboard.st_loading (state (snd (mount Dashboard.component sb))) = false
  /\ has_button "Sair" (mounted_page sb) = true
  /\ has_tile "Ordens de Serviço" (mounted_page sb) = true
  /\ has_tile "Backlog" (mounted_page sb) = true
  /\ has_tile "Máquinas" (mounted_page sb) = true
  /\ has_tile "Métricas" (mounted_page sb) = true.
Proof.
  assert (H : fst (mount Dashboard.component sb) = Normal tt
              /\ Dashboard.st_loading (state (snd (mount Dashboard.component sb))) = false).
  { mount_cases sb; split; reflexivity. }
  destruct H as [Hn Hl]. split; [exact Hn |]. split; [exact Hl |].
  unfold mounted_page; cbn [view Dashboard.component].
  split; [| exact (render_common _ Hl)].
  destruct (render_logout_button _ Hl) as [Hb _].
  unfold has_button. rewrite existsb_exists in Hb |- *.
  destruct Hb as [b [Hin Hb]]. exists b. split; [exact Hin |].
  apply andb_true_iff in Hb. exact (proj1 Hb).
Qed.

(** X2: the mount redirects exactly when the session check resolves with no
    session, and [/login] is the only path it ever redirects to. *)
Theorem mount_redirects_iff_no_session sb :
  (In (Navigate "/login") (log (snd (mount Dashboard.component sb))) <->
   auth_getSession sb = Resolved None)
  /\ (forall path, In (Navigate path) (log (snd (mount Dashboard.component sb))) ->
                   path = "/login").
Proof.
  mount_cases sb; split;
    try (split; [intros H; cbn in H; intuition discriminate | discriminate]);
    try (intros path H; cbn in H; intuition (try discriminate; congruence)).
  split; [reflexivity | intros _; cbn; auto].
Qed.

(** X3: the session is requested first and once. The profile is requested
    once, by the id of the session's user, when the session check resolves with
    a session, and never otherwise. *)
Theorem mount_gateway_calls sb :
  hd_error (log (snd (mount Dashboard.component sb))) = Some GetSession
  /\ filter is_get_session (log (snd (mount Dashboard.component sb))) = [GetSession]
  /\ filter is_profile_request (log (snd (mount Dashboard.component sb))) =
       match auth_getSession sb with
       | Resolved (Some s) => [ProfileRequest (User.id (user s))]
       | _ => []
       end.
Proof. mount_cases sb; repeat split. Qed.

(** X4: the mount never shows a toast and never signs out. It writes to the
    console exactly when the session check throws or the profile lookup fails,
    and then once. *)
Theorem mount_is_silent sb :
  existsb is_toast (log (snd (mount Dashboard.component sb))) = false
  /\ existsb is_sign_out (log (snd (mount Dashboard.component sb))) = false
  /\ length (filter is_console_error (log (snd (mount Dashboard.component sb)))) =
       match auth_getSession sb with
       | Rejected _ => 1
       | Resolved None => 0
       | Resolved (Some s) =>
           if profile_fetch_fails sb (User.id (user s)) then 1 else 0
       end.
Proof.
  unfold profile_fetch_fails. rewrite (mount_run sb).
  destruct (auth_getSession sb) as [[s |] | e];
    [ destruct (profiles_single sb (User.id (user s))) as [r | e];
      [ destruct (error r) | ] | | ];
    repeat split.
Qed.

(** X5: a profile is stored after the mount only if the session check
    resolved with a session, the stored user is that session's user, and the
    profile is the row of a lookup that resolved without an error. *)
Theorem mount_profile_needs_session sb p :
  Dashboard.st_profile (state (snd (mount Dashboard.component sb))) = Some p ->
  exists s r,
    auth_getSession sb = Resolved (Some s)
    /\ Dashboard.st_user (state (snd (mount Dashboard.component sb))) = Some (user s)
    /\ profiles_single sb (User.id (user s)) = Resolved r
    /\ error r = None
    /\ data r = Some p.
Proof.
  rewrite (mount_run sb).
  destruct (auth_getSession sb) as [[s |] | e]; try discriminate.
  destruct (profiles_single sb (User.id (user s))) as [r | e] eqn:Hp; try discriminate.
  destruct (error r) as [e |] eqn:He; try discriminate.
  cbn. intros Hd. exists s, r. repeat split; assumption.
Qed.

Lemma mount_profile_needs_session_witness :
  exists s r,
    auth_getSession (Samples.found Samples.ana) = Resolved (Some s)
    /\ Dashboard.st_user (state (snd (mount Dashboard.component (Samples.found Samples.ana))))
       = Some (user s)
    /\ profiles_single (Samples.found Samples.ana) (User.id (user s)) = Resolved r
    /\ error r = None
    /\ data r = Some Samples.ana.
Proof.
  exact (mount_profile_needs_session (Samples.found Samples.ana) Samples.ana eq_refl).
Defined.

(** X6: a lookup that resolves with neither a row nor an error is taken as
    no profile, silently: nothing is written to the console, and the settled
    page is the one of a failed lookup. *)
Theorem mount_null_row sb s :
  auth_getSession sb = Resolved (Some s) ->
  profiles_single sb (User.id (user s)) = Resolved {| data := None; error := None |} ->
  mount Dashboard.component sb =
    (Normal tt,
     {| state := settled (Some (user s)) None;
        log := [GetSession; ProfileRequest (User.id (user s))] |})
  /\ welcome (mounted_page sb) = [("Bem-vindo, " ++ User.email (user s))%string]
  /\ badges (mounted_page sb) = []
  /\ tile_titles (mounted_page sb) = ["Ordens de Serviço"; "Backlog"; "Máquinas"; "Métricas"].
Proof.
  intros Hs Hp. unfold mounted_page.
  rewrite (mount_run sb), Hs, Hp. cbn [error data snd state view Dashboard.component].
  repeat split.
Qed.

Lemma mount_null_row_witness :
  mount Dashboard.component Cases.null_row =
    (Normal tt,
     {| state := settled (Some (user Samples.session_u1)) None;
        log := [GetSession; ProfileRequest "u1"] |})
  /\ welcome (mounted_page Cases.null_row) = ["Bem-vindo, a@x.com"]
  /\ badges (mounted_page Cases.null_row) = []
  /\ tile_titles (mounted_page Cases.null_row)
     = ["Ordens de Serviço"; "Backlog"; "Máquinas"; "Métricas"].
Proof.
  exact (mount_null_row Cases.null_row Samples.session_u1 eq_refl eq_refl).
Defined.

(** ** Further properties of the render *)

(** A state that has left [loading], split by what its render tests: a
    profile or none, the role against the two literals, a name to greet or
    none. *)
Ltac settled_cases s Hl :=
  destruct s as [u [p|] l]; cbn in Hl; subst l;
  unfold privileged, Dashboard.render, Dashboard.user_type_is;
  cbn [Dashboard.st_loading Dashboard.st_profile Dashboard.st_user];
  [ destruct (UserProfile.user_type p =? "admin");
    destruct (UserProfile.user_type p =? "operator") | ];
  match goal with |- context [interpolate ?name] => destruct name end.

(** X7: the cards of a settled page, in order: Work Orders, Backlog and
    Machines, then Personnel when the stored role is ['admin'], then Requesters
    when it is ['admin'] or ['operator'], then Metrics. *)
Theorem settled_tiles_by_role s :
  Dashboard.st_loading s = false ->
  tile_titles (Dashboard.render s) =
    ["Ordens de Serviço"; "Backlog"; "Máquinas"]
    ++ (if Dashboard.user_type_is (Dashboard.st_profile s) "admin" then ["Pessoal"] else [])
    ++ (if privileged (Dashboard.st_profile s) then ["Requisitantes"] else [])
    ++ ["Métricas"].
Proof. intros Hl. settled_cases s Hl; vm_compute; reflexivity. Qed.

Lemma settled_tiles_by_role_witness :
  tile_titles (Dashboard.render (settled (Some Cases.visitor) (Some Cases.rui))) =
    ["Ordens de Serviço"; "Backlog"; "Máquinas"; "Pessoal"; "Requisitantes"; "Métricas"].
Proof.
  exact (settled_tiles_by_role (settled (Some Cases.visitor) (Some Cases.rui)) eq_refl).
Defined.

(** X8: the paths that the navigation buttons of a settled page name, in
    order: the five that every role gets, with [/machines/new] and the two
    Requesters paths added for ['admin'] and ['operator'], and the two
    Personnel paths for ['admin']. No path is named twice. (The sign-out
    button is not one of these buttons: it runs [handleLogout].) *)
Theorem settled_nav_targets s :
  Dashboard.st_loading s = false ->
  nav_targets (Dashboard.render s) =
    ["/work-orders"; "/work-orders/new"; "/backlog"; "/machines"]
    ++ (if privileged (Dashboard.st_profile s) then ["/machines/new"] else [])
    ++ (if Dashboard.user_type_is (Dashboard.st_profile s) "admin"
        then ["/personnel"; "/personnel/new"] else [])
    ++ (if privileged (Dashboard.st_profile s)
        then ["/requesters"; "/requesters/new"] else [])
    ++ ["/metrics"]
  /\ NoDup (nav_targets (Dashboard.render s)).
Proof.
  intros Hl.
  settled_cases s Hl;
    (split; [vm_compute; reflexivity |]);
    vm_compute;
    repeat (constructor; [cbn; intuition discriminate |]);
    constructor.
Qed.

Lemma settled_nav_targets_witness :
  nav_targets (Dashboard.render (settled (Some Cases.visitor) (Some Cases.rui))) =
    ["/work-orders"; "/work-orders/new"; "/backlog"; "/machines"; "/machines/new";
     "/personnel"; "/personnel/new"; "/requesters"; "/requesters/new"; "/metrics"]
  /\ NoDup (nav_targets (Dashboard.render (settled (Some Cases.visitor) (Some Cases.rui)))).
Proof.
  exact (settled_nav_targets (settled (Some Cases.visitor) (Some Cases.rui)) eq_refl).
Defined.

(** X9: whom the header greets. A stored profile with a non-empty
    [full_name] is greeted by it. With no profile, or a profile whose
    [full_name] is the empty string, the greeting falls back to the email of
    the stored user, and names nobody when no user is stored. *)
Theorem settled_welcome s :
  Dashboard.st_loading s = false ->
  (forall p, Dashboard.st_profile s = Some p -> UserProfile.full_name p <> "" ->
     welcome (Dashboard.render s) = [("Bem-vindo, " ++ UserProfile.full_name p)%string])
  /\
  (forall u, Dashboard.st_user s = Some u ->
     option_map UserProfile.full_name (Dashboard.st_profile s) = None
     \/ option_map UserProfile.full_name (Dashboard.st_profile s) = Some "" ->
     welcome (Dashboard.render s) = [("Bem-vindo, " ++ User.email u)%string])
  /\
  (Dashboard.st_user s = None ->
     option_map UserProfile.full_name (Dashboard.st_profile s) = None
     \/ option_map UserProfile.full_name (Dashboard.st_profile s) = Some "" ->
     welcome (Dashboard.render s) = ["Bem-vindo, "]).
Proof.
  intros Hl. rewrite (render_welcome _ Hl). repeat split.
  - intros p Hp Hn. rewrite Hp. cbn [option_map js_or].
    apply String.eqb_neq in Hn. rewrite Hn. reflexivity.
  - intros u Hu [Hn | Hn]; rewrite Hu, Hn; reflexivity.
  - intros Hu [Hn | Hn]; rewrite Hu, Hn; reflexivity.
Qed.

Lemma settled_welcome_witness :
  welcome (Dashboard.render (settled (Some Cases.visitor) (Some Cases.rui)))
    = ["Bem-vindo, Rui"]
  /\ welcome (Dashboard.render (settled (Some Cases.visitor) (Some Cases.nameless)))
     = ["Bem-vindo, a@x.com"]
  /\ welcome (Dashboard.render (settled None (Some Cases.nameless)))
     = ["Bem-vindo, "].
Proof.
  split; [| split].
  - refine (proj1 (settled_welcome (settled (Some Cases.visitor) (Some Cases.rui)) eq_refl)
              Cases.rui eq_refl _).
    discriminate.
  - exact (proj1 (proj2 (settled_welcome
                           (settled (Some Cases.visitor) (Some Cases.nameless)) eq_refl))
             Cases.visitor eq_refl (or_intror eq_refl)).
  - exact (proj2 (proj2 (settled_welcome (settled None (Some Cases.nameless)) eq_refl))
             eq_refl (or_intror eq_refl)).
Defined.

(** X10: a settled page with a stored profile carries exactly one badge. It
    reads "Administrador" for ['admin'], "Operador" for ['operator'] and
    "Requisitante" for ['requester']; the comparison is exact, so ['Admin']
    is not ['admin']. *)
Theorem settled_badge s p :
  Dashboard.st_loading s = false ->
  Dashboard.st_profile s = Some p ->
  length (descendants "Badge" (Dashboard.render s)) = 1
  /\ (UserProfile.user_type p = "admin" -> badges (Dashboard.render s) = ["Administrador"])
  /\ (UserProfile.user_type p = "operator" -> badges (Dashboard.render s) = ["Operador"])
  /\ (UserProfile.user_type p = "requester" -> badges (Dashboard.render s) = ["Requisitante"])
  /\ (UserProfile.user_type p = "Admin" -> badges (Dashboard.render s) = ["Requisitante"]).
Proof.
  intros Hl Hp.
  split.
  - pose proof (f_equal (@length string) (render_badges _ Hl)) as Hb.
    rewrite Hp in Hb. unfold badges in Hb. rewrite length_map in Hb. exact Hb.
  - rewrite (render_badges _ Hl), Hp. unfold badge_of.
    repeat split; intros Ht; rewrite Ht; reflexivity.
Qed.

Lemma settled_badge_witness :
  length (descendants "Badge"
            (Dashboard.render (settled (Some Cases.visitor) (Some Cases.bia)))) = 1
  /\ badges (Dashboard.render (settled (Some Cases.visitor) (Some Cases.bia)))
     = ["Requisitante"].
Proof.
  pose proof (settled_badge (settled (Some Cases.visitor) (Some Cases.bia)) Cases.bia
                eq_refl eq_refl) as [H1 [_ [_ [H4 _]]]].
  exact (conj H1 (H4 eq_refl)).
Defined.

(** X11: while [loading] is on, whatever user and profile are stored, the
    render is the placeholder: its only text is "Carregando...", and it has no
    link, no button (so no way to sign out), no card, no greeting and no
    badge. The first render of a mount is this one. *)
Theorem loading_placeholder s :
  Dashboard.st_loading s = true ->
  text_content (Dashboard.render s) = "Carregando..."
  /\ affordances (Dashboard.render s) = []
  /\ buttons (Dashboard.render s) = []
  /\ tiles (Dashboard.render s) = []
  /\ welcome (Dashboard.render s) = []
  /\ badges (Dashboard.render s) = []
  /\ Dashboard.render s = view Dashboard.component (init Dashboard.component).
Proof.
  intros Hl. destruct s as [u p l]; cbn in Hl; subst l.
  repeat split.
Qed.

Lemma loading_placeholder_witness :
  text_content (Dashboard.render Cases.still_loading) = "Carregando..."
  /\ affordances (Dashboard.render Cases.still_loading) = []
  /\ buttons (Dashboard.render Cases.still_loading) = []
  /\ tiles (Dashboard.render Cases.still_loading) = []
  /\ welcome (Dashboard.render Cases.still_loading) = []
  /\ badges (Dashboard.render Cases.still_loading) = []
  /\ Dashboard.render Cases.still_loading
     = view Dashboard.component (init Dashboard.component).
Proof. exact (loading_placeholder Cases.still_loading eq_refl). Defined.

(** X12: the render reads the stored profile only through [full_name] and
    [user_type], and the stored user only through [email]: two states that
    agree on these and on [loading] render the same tree. Neither the ids nor
    the profile's own email reach the page. *)
Theorem render_reads_name_role_email s1 s2 :
  Dashboard.st_loading s1 = Dashboard.st_loading s2 ->
  option_map User.email (Dashboard.st_user s1)
    = option_map User.email (Dashboard.st_user s2) ->
  option_map UserProfile.full_name (Dashboard.st_profile s1)
    = option_map UserProfile.full_name (Dashboard.st_profile s2) ->
  option_map UserProfile.user_type (Dashboard.st_profile s1)
    = option_map UserProfile.user_type (Dashboard.st_profile s2) ->
  Dashboard.render s1 = Dashboard.render s2.
Proof.
  destruct s1 as [u1 p1 l1], s2 as [u2 p2 l2]; cbn.
  intros <- He Hn Ht.
  unfold Dashboard.render, Dashboard.user_type_is;
    cbn [Dashboard.st_loading Dashboard.st_profile Dashboard.st_user].
  rewrite He.
  destruct p1 as [[i1 e1 n1 t1] |], p2 as [[i2 e2 n2 t2] |];
    cbn in Hn, Ht; try discriminate; cbn [UserProfile.full_name UserProfile.user_type].
  - injection Hn as ->. injection Ht as ->. reflexivity.
  - reflexivity.
Qed.

Lemma render_reads_name_role_email_witness :
  Dashboard.render (settled (Some Cases.visitor) (Some Samples.ana))
  = Dashboard.render (settled (Some Cases.visitor_again) (Some Cases.ana_again)).
Proof.
  exact (render_reads_name_role_email
           (settled (Some Cases.visitor) (Some Samples.ana))
           (settled (Some Cases.visitor_again) (Some Cases.ana_again))
           eq_refl eq_refl eq_refl eq_refl).
Defined.

(** X13: the gates are nested. On a settled page, whoever is shown the
    Personnel card is also shown the Requesters card and the "Register
    Machine" button; and these two always come together. *)
Theorem settled_gates_nest s :
  Dashboard.st_loading s = false ->
  (has_tile "Pessoal" (Dashboard.render s) = true ->
   has_tile "Requisitantes" (Dashboard.render s) = true
   /\ tile_has_action "Máquinas" "Cadastrar Máquina" "/machines/new"
        (Dashboard.render s) = true)
  /\ has_tile "Requisitantes" (Dashboard.render s)
     = tile_has_action "Máquinas" "Cadastrar Máquina" "/machines/new" (Dashboard.render s).
Proof.
  intros Hl.
  rewrite (render_personnel _ Hl), (render_requesters _ Hl), (render_register_machine _ Hl).
  split; [| reflexivity].
  unfold privileged. intros ->. split; reflexivity.
Qed.

Lemma settled_gates_nest_witness :
  has_tile "Requisitantes"
    (Dashboard.render (settled (Some Cases.visitor) (Some Cases.rui))) = true
  /\ tile_has_action "Máquinas" "Cadastrar Máquina" "/machines/new"
       (Dashboard.render (settled (Some Cases.visitor) (Some Cases.rui))) = true.
Proof.
  exact (proj1 (settled_gates_nest (settled (Some Cases.visitor) (Some Cases.rui)) eq_refl)
           eq_refl).
Defined.

(** X14: every settled page, whatever is stored (also with no user at all),
    has exactly one control that signs out, the button labelled "Sair"; every
    other control is a navigation, and every button has a handler. *)
Theorem settled_sign_out_button s :
  Dashboard.st_loading s = false ->
  filter is_logout_click (affordances (Dashboard.render s)) = [Click HandleLogout]
  /\ map fst (filter signs_out (buttons (Dashboard.render s))) = ["Sair"]
  /\ forallb (fun b => match snd b with Some _ => true | None => false end)
       (buttons (Dashboard.render s)) = true.
Proof. intros Hl. settled_cases s Hl; vm_compute; repeat split. Qed.

Lemma settled_sign_out_button_witness :
  filter is_logout_click (affordances (Dashboard.render (settled None None)))
    = [Click HandleLogout]
  /\ map fst (filter signs_out (buttons (Dashboard.render (settled None None)))) = ["Sair"]
  /\ forallb (fun b => match snd b with Some _ => true | None => false end)
       (buttons (Dashboard.render (settled None None))) = true.
Proof. exact (settled_sign_out_button (settled None None) eq_refl). Defined.

(** ** Further properties of the sign-out *)

(** X15: whatever the gateway answers and whatever happened before,
    [handleLogout] ends normally (its promise never rejects), keeps the log so
    far and the component state, asks the gateway to sign out before anything
    else, and ends by showing exactly one toast. It writes nothing to the
    console and asks for no session and no profile. It redirects exactly when
    the sign-out call resolved. *)
Theorem handleLogout_always sb w :
  exists added,
    Dashboard.handleLogout sb w
      = (Normal tt, {| state := state w; log := log w ++ SignOut :: added |})
    /\ map is_toast added = repeat false (length added - 1) ++ [true]
    /\ existsb is_console_error added = false
    /\ existsb is_get_session added = false
    /\ existsb is_profile_request added = false
    /\ existsb is_sign_out added = false
    /\ existsb is_navigate added
       = match auth_signOut sb with Resolved _ => true | Rejected _ => false end.
Proof.
  destruct (auth_signOut sb) as [r | e] eqn:H.
  - exists [Navigate "/login"; ShowToast Dashboard.logout_ok].
    rewrite (handleLogout_resolved sb w r H). repeat split.
  - exists [ShowToast Dashboard.logout_failed].
    rewrite (handleLogout_rejected sb w e H). repeat split.
Qed.

(** ** From the gateway to the gated tiles *)

(** X16: a mounted page shows a role-gated item (the Personnel card, the
    Requesters card or the "Register Machine" button) only on the strength of a
    fetched row: the session check resolved with a session, the lookup by that
    session's user id resolved without an error, and the row's [user_type] is
    ['admin'] or ['operator']. *)
Theorem gated_tiles_need_fetched_role sb :
  has_tile "Pessoal" (mounted_page sb) = true
  \/ has_tile "Requisitantes" (mounted_page sb) = true
  \/ has_button "Cadastrar Máquina" (mounted_page sb) = true ->
  exists s r p,
    auth_getSession sb = Resolved (Some s)
    /\ profiles_single sb (User.id (user s)) = Resolved r
    /\ error r = None
    /\ data r = Some p
    /\ (UserProfile.user_type p = "admin" \/ UserProfile.user_type p = "operator").
Proof.
  assert (gate : forall st, Dashboard.st_loading st = false ->
            has_tile "Pessoal" (Dashboard.render st) = true
            \/ has_tile "Requisitantes" (Dashboard.render st) = true
            \/ has_button "Cadastrar Máquina" (Dashboard.render st) = true ->
            privileged (Dashboard.st_profile st) = true).
  { intros st Hl.
    rewrite (render_personnel _ Hl), (render_requesters _ Hl),
            (proj1 (render_register_machine_button _ Hl)).
    unfold privileged. intros [H | [H | H]]; [rewrite H; reflexivity | exact H | exact H]. }
  unfold mounted_page. rewrite (mount_run sb).
  destruct (auth_getSession sb) as [[s |] | e0];
    [ destruct (profiles_single sb (User.id (user s))) as [r | e0] eqn:Hp;
      [ destruct (error r) as [e0 |] eqn:He | ] | | ];
    cbn [snd state view Dashboard.component]; intros H;
    apply gate in H; try reflexivity; try discriminate H.
  cbn [Dashboard.st_profile settled] in H.
  apply privileged_spec in H. destruct H as [p [Hd Ht]].
  exists s, r, p. repeat split; assumption.
Qed.

Lemma gated_tiles_need_fetched_role_witness :
  exists s r p,
    auth_getSession (Samples.found Samples.ana) = Resolved (Some s)
    /\ profiles_single (Samples.found Samples.ana) (User.id (user s)) = Resolved r
    /\ error r = None
    /\ data r = Some p
    /\ (UserProfile.user_type p = "admin" \/ UserProfile.user_type p = "operator").
Proof.
  exact (gated_tiles_need_fetched_role (Samples.found Samples.ana)
           (or_intror (or_introl eq_refl))).
Defined.
